(** * factorial.py: the Range Generator and the Factorial Calculator

    A shallow embedding of [src/factorial.py] and the properties its
    specification states about [get_numbers_up_to] and [factorial]. *)

From Stdlib Require Import ZArith List String Bool Lia Factorial Sorted.
From Stdlib Require Import DecimalString.
Import ListNotations.
Local Open Scope string_scope.
Local Open Scope Z_scope.

(** ** Python values, exceptions and the built-ins the module uses *)

Module Py.

(** The values a caller can hand to the two functions.  [int] is unbounded,
    hence [Z]; [bool] is a subclass of [int]; a [float] is kept as a dyadic
    [m * 2^e], which the module never inspects; [VStr] and [VNone] stand for
    the remaining non-integer objects. *)
Inductive value : Type :=
| VInt (z : Z)
| VBool (b : bool)
| VFloat (m e : Z)
| VStr (s : string)
| VNone.

Inductive exn : Type :=
| TypeError (msg : string)
| ValueError (msg : string).

Inductive result (A : Type) : Type :=
| Ok (a : A)
| Raise (e : exn).

Arguments Ok {A} a.
Arguments Raise {A} e.

(** [isinstance(v, int)]: true of [int] objects and of the two [bool]s. *)
Definition isinstance_int (v : value) : bool :=
  match v with
  | VInt _ | VBool _ => true
  | _ => false
  end.

(** The integer an [int] instance denotes in arithmetic and comparisons
    ([True] is 1 and [False] is 0).  Only read after [isinstance_int]. *)
Definition int_val (v : value) : Z :=
  match v with
  | VInt z => z
  | VBool true => 1
  | VBool false => 0
  | _ => 0
  end.

(** [list(range(lo, hi))]: [lo, lo+1, ..., hi-1], empty when [hi <= lo]. *)
Definition list_range (lo hi : Z) : list Z :=
  map (fun k => lo + Z.of_nat k) (seq 0 (Z.to_nat (hi - lo))).

Definition is_TypeError {A} (r : result A) : bool :=
  match r with
  | Raise (TypeError _) => true
  | _ => false
  end.

Definition is_ValueError {A} (r : result A) : bool :=
  match r with
  | Raise (ValueError _) => true
  | _ => false
  end.

End Py.
Import Py.

(** ** The computation monad

    A call runs in an ambient [World] (everything that lives outside the call
    frame), may raise, and leaves a record of the function entries it went
    through. *)

Inductive fn : Type :=
| Fn_get_numbers_up_to
| Fn_factorial.

Inductive event : Type :=
| Call (f : fn) (arg : value).

Record outcome (World A : Type) : Type := Outcome {
  world : World;
  calls : list event;
  res : result A
}.

Arguments Outcome {World A} world calls res.
Arguments world {World A} o.
Arguments calls {World A} o.
Arguments res {World A} o.

Definition M (World A : Type) : Type := World -> outcome World A.

Section Monad.
Context {World : Type}.

Definition ret {A} (a : A) : M World A :=
  fun w => Outcome w [] (Ok a).

Definition raise {A} (e : exn) : M World A :=
  fun w => Outcome w [] (Raise e).

(** Instrumentation: records that the body of [f] was entered with [arg].
    It is the first step of each function below and has no counterpart in
    the Python text. *)
Definition enter (f : fn) (arg : value) : M World unit :=
  fun w => Outcome w [Call f arg] (Ok tt).

Definition bind {A B} (m : M World A) (k : A -> M World B) : M World B :=
  fun w =>
    let o := m w in
    match res o with
    | Ok a =>
        let o' := k a (world o) in
        Outcome (world o') (calls o ++ calls o') (res o')
    | Raise e => Outcome (world o) (calls o) (Raise e)
    end.
End Monad.

Notation "x <- m ;; k" := (bind m (fun x => k))
  (at level 61, m at next level, right associativity).
Notation "m ;; k" := (bind m (fun _ => k))
  (at level 61, right associativity).

(** ** The two functions of [factorial.py] *)

Section Program.
Context {World : Type}.

Definition get_numbers_up_to (n : value) : M World (list Z) :=
  enter Fn_get_numbers_up_to n ;;
  if negb (isinstance_int n) then
    raise (TypeError "Input must be an integer")
  else if int_val n <? 1 then
    raise (ValueError "Input must be a positive integer")
  else
    ret (list_range 1 (int_val n + 1)).

Definition factorial (n : value) : M World Z :=
  enter Fn_factorial n ;;
  if negb (isinstance_int n) then
    raise (TypeError "Input must be an integer")
  else if int_val n <? 0 then
    raise (ValueError "Factorial is not defined for negative numbers")
  else if (int_val n =? 0) || (int_val n =? 1) then
    ret 1
  else
    numbers <- get_numbers_up_to n ;;
    let result := 1 in
    let result := fold_left (fun result num => result * num) numbers result in
    ret result.
End Program.

(** The sequence [1, 2, ..., n] as the specification writes it; the code's
    own list is [list_range 1 (n + 1)]. *)
Definition one_to (n : Z) : list Z :=
  map Z.of_nat (seq 1 (Z.to_nat n)).

(** ** The demonstration driver

    The block under [if __name__ == "__main__"] prints to standard output,
    which is state outside every call frame: the driver runs with the lines
    printed so far as its world. *)

Definition stdout : Type := list string.

(** [print(s)]: one more line on standard output. *)
Definition print (s : string) : M stdout unit :=
  fun out => Outcome (out ++ [s])%list [] (Ok tt).

(** A built-in that may raise but touches no state. *)
Definition lift {World A : Type} (r : result A) : M World A :=
  fun w => Outcome w [] r.

(** [for x in xs: body(x)]; an exception raised by the body leaves the loop. *)
Fixpoint for_each {World A : Type} (xs : list A) (body : A -> M World unit)
  : M World unit :=
  match xs with
  | [] => ret tt
  | x :: xs' => body x ;; for_each xs' body
  end.

(** The decimal text of an [int], with a leading minus sign when negative. *)
Definition str_int (z : Z) : string :=
  NilZero.string_of_int (Z.to_int z).

(** The number of decimal digits of [z], its sign not counted. *)
Definition num_digits (z : Z) : nat :=
  String.length (str_int (Z.abs z)).

(** Formatting an [int] inside an f-string.  [max_str_digits] is the
    interpreter's [sys.get_int_max_str_digits()]: 0 when the conversion is
    unlimited (as in interpreters without the setting), otherwise at least
    640 and 4300 by default; a longer number is refused with [ValueError]. *)
Definition int_to_str (max_str_digits : nat) (z : Z) : result string :=
  if ((0 <? max_str_digits) && (max_str_digits <? num_digits z))%nat then
    Raise (ValueError
             ("Exceeds the limit (" ++ str_int (Z.of_nat max_str_digits)
              ++ " digits) for integer string conversion; "
              ++ "use sys.set_int_max_str_digits() to increase the limit"))
  else Ok (str_int z).

Fixpoint ints_to_strs (max_str_digits : nat) (l : list Z)
  : result (list string) :=
  match l with
  | [] => Ok []
  | z :: l' =>
      match int_to_str max_str_digits z with
      | Raise e => Raise e
      | Ok s =>
          match ints_to_strs max_str_digits l' with
          | Raise e => Raise e
          | Ok ss => Ok (s :: ss)
          end
      end
  end.

(** Formatting a [list] of [int]s inside an f-string: ["[1, 2, 3]"]. *)
Definition list_to_str (max_str_digits : nat) (l : list Z) : result string :=
  match ints_to_strs max_str_digits l with
  | Raise e => Raise e
  | Ok ss => Ok ("[" ++ String.concat ", " ss ++ "]")
  end.

Fixpoint str_repeat (s : string) (k : nat) : string :=
  match k with
  | O => ""
  | S k' => s ++ str_repeat s k'
  end.

(** [s * k] on a string. *)
Definition str_mul (s : string) (k : Z) : string :=
  str_repeat s (Z.to_nat k).

(** The body of the driver's loop for one test number. *)
Definition main_body (max_str_digits : nat) (num : Z) : M stdout unit :=
  (if num >? 0 then
     numbers <- get_numbers_up_to (VInt num) ;;
     s_num <- lift (int_to_str max_str_digits num) ;;
     s_numbers <- lift (list_to_str max_str_digits numbers) ;;
     print ("Numbers up to " ++ s_num ++ ": " ++ s_numbers)
   else ret tt) ;;
  s_num <- lift (int_to_str max_str_digits num) ;;
  f <- factorial (VInt num) ;;
  s_f <- lift (int_to_str max_str_digits f) ;;
  print ("Factorial of " ++ s_num ++ ": " ++ s_f) ;;
  print (str_mul "-" 40).

Definition main_loop (max_str_digits : nat) (test_numbers : list Z)
  : M stdout unit :=
  for_each test_numbers (main_body max_str_digits).

Definition main (max_str_digits : nat) : M stdout unit :=
  let test_numbers := [0; 5; 100; 150] in
  main_loop max_str_digits test_numbers.

(** What the driver is expected to print and to call for one test number. *)

Definition fits (max_str_digits : nat) (z : Z) : bool :=
  negb ((0 <? max_str_digits) && (max_str_digits <? num_digits z))%nat.

Definition product_one_to (n : Z) : Z :=
  fold_left Z.mul (one_to n) 1.

(** Every integer the driver formats for [num] is within the digit limit. *)
Definition printable (max_str_digits : nat) (num : Z) : bool :=
  fits max_str_digits num
  && fits max_str_digits (product_one_to num)
  && forallb (fits max_str_digits) (one_to num).

Definition separator : string :=
  "----------------------------------------".

Definition numbers_line (num : Z) : string :=
  "Numbers up to " ++ str_int num ++ ": ["
  ++ String.concat ", " (map str_int (one_to num)) ++ "]".

Definition factorial_line (num : Z) : string :=
  "Factorial of " ++ str_int num ++ ": " ++ str_int (product_one_to num).

Definition item_lines (num : Z) : list string :=
  app (if 0 <? num then [numbers_line num] else [])
      [factorial_line num; separator].

Definition item_calls (num : Z) : list event :=
  app (if 0 <? num then [Call Fn_get_numbers_up_to (VInt num)] else [])
      (Call Fn_factorial (VInt num)
       :: (if 1 <? num then [Call Fn_get_numbers_up_to (VInt num)] else [])).

(** A test number the driver can print in full: not negative, and every
    integer it formats is within the digit limit. *)
Definition item_ok (limit : nat) (num : Z) : Prop :=
  0 <= num /\ printable limit num = true.




(** Entries of [get_numbers_up_to] in a call record. *)
Definition is_range_call (e : event) : bool :=
  match e with
  | Call Fn_get_numbers_up_to _ => true
  | Call Fn_factorial _ => false
  end.

(** How many of the test numbers are greater than [k]. *)
Definition count_above (k : Z) (l : list Z) : nat :=
  List.length (filter (fun n => k <? n) l).

Example get_numbers_up_to_5 :
  res (get_numbers_up_to (VInt 5) tt) = Ok [1; 2; 3; 4; 5].
Proof. reflexivity. Qed.

Example factorial_5_calls :
  factorial (VInt 5) tt
  = Outcome tt [Call Fn_factorial (VInt 5); Call Fn_get_numbers_up_to (VInt 5)]
            (Ok 120).
Proof. reflexivity. Qed.

Example factorial_neg : is_ValueError (res (factorial (VInt (-3)) tt)) = true.
Proof. reflexivity. Qed.

(** ** What a call does: the run equations *)

Lemma get_numbers_up_to_run {World : Type} (n : value) (w : World) :
  get_numbers_up_to n w
  = Outcome w [Call Fn_get_numbers_up_to n]
      (if negb (isinstance_int n) then
         Raise (TypeError "Input must be an integer")
       else if int_val n <? 1 then
         Raise (ValueError "Input must be a positive integer")
       else Ok (list_range 1 (int_val n + 1))).
Proof.
  unfold get_numbers_up_to, bind, enter; simpl.
  destruct (isinstance_int n); simpl; [destruct (int_val n <? 1) |]; reflexivity.
Qed.

Lemma factorial_run {World : Type} (n : value) (w : World) :
  factorial n w
  = Outcome w
      (Call Fn_factorial n ::
         if isinstance_int n && (1 <? int_val n)
         then [Call Fn_get_numbers_up_to n] else [])
      (if negb (isinstance_int n) then
         Raise (TypeError "Input must be an integer")
       else if int_val n <? 0 then
         Raise (ValueError "Factorial is not defined for negative numbers")
       else if (int_val n =? 0) || (int_val n =? 1) then Ok 1
       else Ok (fold_left Z.mul (list_range 1 (int_val n + 1)) 1)).
Proof.
  unfold factorial, bind at 1, enter; simpl.
  destruct (isinstance_int n) eqn:Hi; simpl; [| reflexivity].
  destruct (int_val n <? 0) eqn:H0; simpl.
  { replace (1 <? int_val n) with false by (symmetry; apply Z.ltb_ge; apply Z.ltb_lt in H0; lia).
    reflexivity. }
  apply Z.ltb_ge in H0.
  destruct ((int_val n =? 0) || (int_val n =? 1)) eqn:Hb; simpl.
  { replace (1 <? int_val n) with false; [reflexivity |].
    symmetry; apply Z.ltb_ge.
    apply orb_true_iff in Hb as [Hb | Hb]; apply Z.eqb_eq in Hb; lia. }
  apply orb_false_iff in Hb as [Hb0 Hb1].
  apply Z.eqb_neq in Hb0, Hb1.
  replace (1 <? int_val n) with true by (symmetry; apply Z.ltb_lt; lia).
  unfold bind; rewrite get_numbers_up_to_run; simpl.
  rewrite Hi; simpl.
  replace (int_val n <? 1) with false by (symmetry; apply Z.ltb_ge; lia).
  reflexivity.
Qed.

(** ** The sequence 1..n and its product *)

Lemma list_range_one_to (n : Z) : list_range 1 (n + 1) = one_to n.
Proof.
  unfold list_range, one_to.
  replace (n + 1 - 1) with n by lia.
  rewrite <- seq_shift, map_map.
  apply map_ext; intro k; lia.
Qed.










(** ** The properties of the specification *)





(** C3: on an integer input, [get_numbers_up_to] raises [ValueError] if and
    only if [n < 1] and [factorial] raises [ValueError] if and only if
    [n < 0]; [get_numbers_up_to(0)], [get_numbers_up_to(-1)] and
    [factorial(-1)] raise it; a failing call yields the exception and nothing
    else, and leaves the world as it found it. *)
Theorem value_range_error_iff {World : Type} (w : World) (v : value)
    (Hv : isinstance_int v = true) :
  (is_ValueError (res (get_numbers_up_to v w)) = true <-> int_val v < 1)
  /\ (is_ValueError (res (factorial v w)) = true <-> int_val v < 0)
  /\ (int_val v < 1 ->
      get_numbers_up_to v w
      = Outcome w [Call Fn_get_numbers_up_to v]
          (Raise (ValueError "Input must be a positive integer")))
  /\ (int_val v < 0 ->
      factorial v w
      = Outcome w [Call Fn_factorial v]
          (Raise (ValueError "Factorial is not defined for negative numbers")))
  /\ is_ValueError (res (get_numbers_up_to (VInt 0) w)) = true
  /\ is_ValueError (res (get_numbers_up_to (VInt (-1)) w)) = true
  /\ is_ValueError (res (factorial (VInt (-1)) w)) = true.
Proof.
  rewrite !get_numbers_up_to_run, !factorial_run, Hv.
  cbn [res negb andb].
  repeat split; try reflexivity.
  - destruct (int_val v <? 1) eqn:E; [intros _; now apply Z.ltb_lt | discriminate].
  - intro H; apply Z.ltb_lt in H; now rewrite H.
  - destruct (int_val v <? 0) eqn:E; [intros _; now apply Z.ltb_lt |].
    destruct ((int_val v =? 0) || (int_val v =? 1)); discriminate.
  - intro H; apply Z.ltb_lt in H; now rewrite H.
  - intro H; apply Z.ltb_lt in H; now rewrite H.
  - intro H.
    replace (1 <? int_val v) with false by (symmetry; apply Z.ltb_ge; lia).
    apply Z.ltb_lt in H; now rewrite H.
Qed.

Lemma value_range_error_iff_witness :
  isinstance_int (VInt (-7)) = true
  /\ get_numbers_up_to (VInt (-7)) tt
     = Outcome tt [Call Fn_get_numbers_up_to (VInt (-7))]
         (Raise (ValueError "Input must be a positive integer"))
  /\ factorial (VInt (-7)) tt
     = Outcome tt [Call Fn_factorial (VInt (-7))]
         (Raise (ValueError "Factorial is not defined for negative numbers")).
Proof.
  pose proof (value_range_error_iff tt (VInt (-7)) eq_refl)
    as (_ & _ & Hg & Hf & _).
  split; [reflexivity |].
  split; [apply Hg | apply Hf]; simpl; lia.
Defined.

(** C4: for every value that is not an integer (such as [3.5] or ["5"]),
    both [get_numbers_up_to] and [factorial] raise [TypeError], before they
    compute anything: [factorial] has not called [get_numbers_up_to] and the
    world is untouched. *)
Theorem type_mismatch_error {World : Type} (w : World) (v : value)
    (Hv : isinstance_int v = false) :
  get_numbers_up_to v w
  = Outcome w [Call Fn_get_numbers_up_to v]
      (Raise (TypeError "Input must be an integer"))
  /\ factorial v w
     = Outcome w [Call Fn_factorial v]
         (Raise (TypeError "Input must be an integer")).
Proof.
  rewrite get_numbers_up_to_run, factorial_run, Hv; split; reflexivity.
Qed.

Lemma type_mismatch_error_witness :
  isinstance_int (VFloat 7 (-1)) = false
  /\ isinstance_int (VStr "5") = false
  /\ is_TypeError (res (get_numbers_up_to (VFloat 7 (-1)) tt)) = true
  /\ is_TypeError (res (factorial (VFloat 7 (-1)) tt)) = true
  /\ is_TypeError (res (get_numbers_up_to (VStr "5") tt)) = true
  /\ is_TypeError (res (factorial (VStr "5") tt)) = true.
Proof.
  pose proof (type_mismatch_error tt (VFloat 7 (-1)) eq_refl) as [Hg Hf].
  pose proof (type_mismatch_error tt (VStr "5") eq_refl) as [Hg' Hf'].
  rewrite Hg, Hf, Hg', Hf'.
  repeat split.
Defined.









(** C9: the two booleans pass the [isinstance(n, int)] test, so they are
    handled as the integers 1 and 0 and never raise [TypeError]:
    [factorial(True) = 1], [factorial(False) = 1] and
    [get_numbers_up_to(True) = [1]]. *)
Theorem bool_inputs_are_integers {World : Type} (w : World) :
  res (factorial (VBool true) w) = Ok 1
  /\ res (factorial (VBool false) w) = Ok 1
  /\ res (get_numbers_up_to (VBool true) w) = Ok [1]
  /\ forall b : bool,
       isinstance_int (VBool b) = true
       /\ is_TypeError (res (factorial (VBool b) w)) = false
       /\ is_TypeError (res (get_numbers_up_to (VBool b) w)) = false.
Proof.
  repeat split; try (rewrite ?factorial_run, ?get_numbers_up_to_run; reflexivity);
    destruct b; rewrite ?factorial_run, ?get_numbers_up_to_run; reflexivity.
Qed.


(** ** Further properties of the two functions *)

From Stdlib Require Import Finite.
















(** X4: on any value whatever, [factorial] returns a result exactly when
    [get_numbers_up_to] does or the value is an integer equal to 0 (which
    includes [False]): wherever the range can be built the factorial exists,
    and 0 is the only input on which the two differ. *)
Theorem factorial_domain {World : Type} (w : World) (v : value) :
  (exists r : Z, res (factorial v w) = Ok r)
  <-> (exists l : list Z, res (get_numbers_up_to v w) = Ok l)
      \/ (isinstance_int v = true /\ int_val v = 0).
Proof.
  rewrite factorial_run, get_numbers_up_to_run; cbn [res].
  destruct (isinstance_int v); cbn [negb].
  - destruct (int_val v <? 0) eqn:E0.
    + apply Z.ltb_lt in E0.
      replace (int_val v <? 1) with true by (symmetry; apply Z.ltb_lt; lia).
      split; [intros [r Hr]; discriminate |].
      intros [[l Hl] | [_ H0]]; [discriminate | lia].
    + apply Z.ltb_ge in E0.
      split.
      * intros _.
        destruct (int_val v <? 1) eqn:E1; [right | left; eauto].
        apply Z.ltb_lt in E1; split; [reflexivity | lia].
      * intros _; destruct ((int_val v =? 0) || (int_val v =? 1)); eauto.
  - split; [intros [r Hr]; discriminate |].
    intros [[l Hl] | [H _]]; discriminate.
Qed.





(** ** The demonstration driver: what it prints and calls *)

Lemma int_to_str_fits (limit : nat) (z : Z) :
  fits limit z = true -> int_to_str limit z = Ok (str_int z).
Proof.
  unfold fits, int_to_str; intro H.
  apply negb_true_iff in H; now rewrite H.
Qed.

Lemma ints_to_strs_fits (limit : nat) (l : list Z) :
  forallb (fits limit) l = true -> ints_to_strs limit l = Ok (map str_int l).
Proof.
  induction l as [| z l IH]; cbn [forallb ints_to_strs map]; [reflexivity |].
  intro H; apply andb_true_iff in H as [Hz Hl].
  now rewrite (int_to_str_fits _ _ Hz), (IH Hl).
Qed.

Lemma product_one_to_run (n : Z) :
  fold_left Z.mul (list_range 1 (n + 1)) 1 = product_one_to n.
Proof. unfold product_one_to; now rewrite list_range_one_to. Qed.

(** *** Running a sequence of steps *)

Lemma bind_ok {World A B : Type} (m : M World A) (k : A -> M World B)
    (w w1 w2 : World) (c1 c2 : list event) (a : A) (r : result B) :
  m w = Outcome w1 c1 (Ok a) ->
  k a w1 = Outcome w2 c2 r ->
  bind m k w = Outcome w2 (c1 ++ c2)%list r.
Proof. intros H1 H2; unfold bind; rewrite H1; cbn [res world calls]; now rewrite H2. Qed.


Lemma get_numbers_up_to_pos {World : Type} (w : World) (num : Z) :
  0 < num ->
  get_numbers_up_to (VInt num) w
  = Outcome w [Call Fn_get_numbers_up_to (VInt num)] (Ok (one_to num)).
Proof.
  intro H; rewrite get_numbers_up_to_run; cbn [isinstance_int int_val negb].
  replace (num <? 1) with false by (symmetry; apply Z.ltb_ge; lia).
  now rewrite list_range_one_to.
Qed.

Lemma factorial_nonneg {World : Type} (w : World) (num : Z) :
  0 <= num ->
  factorial (VInt num) w
  = Outcome w
      (Call Fn_factorial (VInt num)
       :: (if 1 <? num then [Call Fn_get_numbers_up_to (VInt num)] else []))
      (Ok (product_one_to num)).
Proof.
  intro H; rewrite factorial_run; cbn [isinstance_int int_val negb andb].
  replace (num <? 0) with false by (symmetry; apply Z.ltb_ge; lia).
  f_equal.
  destruct ((num =? 0) || (num =? 1)) eqn:Hb.
  - apply orb_true_iff in Hb as [Hb | Hb]; apply Z.eqb_eq in Hb; subst num;
      reflexivity.
  - now rewrite product_one_to_run.
Qed.


Lemma main_body_ok (limit : nat) (num : Z) (out : stdout) :
  0 <= num -> printable limit num = true ->
  main_body limit num out
  = Outcome (out ++ item_lines num)%list (item_calls num) (Ok tt).
Proof.
  intros Hnum Hp.
  unfold printable in Hp.
  apply andb_true_iff in Hp as [Hp Hl]; apply andb_true_iff in Hp as [Hn Hf].
  apply int_to_str_fits in Hn, Hf.
  unfold main_body, item_lines, item_calls.
  rewrite Z.gtb_ltb.
  destruct (0 <? num) eqn:Hpos.
  - apply Z.ltb_lt in Hpos.
    etransitivity.
    { eapply bind_ok.
      { eapply bind_ok; [now apply get_numbers_up_to_pos |].
        eapply bind_ok; [unfold lift; rewrite Hn; reflexivity |].
        eapply bind_ok; [| reflexivity].
        unfold lift, list_to_str; rewrite (ints_to_strs_fits _ _ Hl); reflexivity. }
      eapply bind_ok; [unfold lift; rewrite Hn; reflexivity |].
      eapply bind_ok; [apply factorial_nonneg; lia |].
      eapply bind_ok; [unfold lift; rewrite Hf; reflexivity |].
      eapply bind_ok; reflexivity. }
    cbn [app]; rewrite <- !app_assoc, !app_nil_r; reflexivity.
  - apply Z.ltb_ge in Hpos.
    etransitivity.
    { eapply bind_ok; [reflexivity |].
      eapply bind_ok; [unfold lift; rewrite Hn; reflexivity |].
      eapply bind_ok; [apply factorial_nonneg; lia |].
      eapply bind_ok; [unfold lift; rewrite Hf; reflexivity |].
      eapply bind_ok; reflexivity. }
    cbn [app]; rewrite <- !app_assoc, !app_nil_r; reflexivity.
Qed.


Lemma main_loop_cons (limit : nat) (num : Z) (l : list Z) :
  main_loop limit (num :: l)
  = bind (main_body limit num) (fun _ => main_loop limit l).
Proof. reflexivity. Qed.

Lemma main_loop_ok (limit : nat) (l : list Z) (out : stdout) :
  Forall (item_ok limit) l ->
  main_loop limit l out
  = Outcome (out ++ flat_map item_lines l)%list (flat_map item_calls l) (Ok tt).
Proof.
  intro Hl; revert out; induction Hl as [| num l [Hnum Hp] _ IH]; intro out.
  - cbn; now rewrite app_nil_r.
  - rewrite main_loop_cons.
    erewrite bind_ok; [| now apply main_body_ok | apply IH].
    cbn [flat_map]; now rewrite app_assoc.
Qed.


(** *** What the driver keeps at every step *)











Lemma fits_of_digits (limit : nat) (z : Z) :
  (limit = 0 \/ num_digits z <= limit)%nat -> fits limit z = true.
Proof.
  intro H; unfold fits; apply negb_true_iff, andb_false_iff.
  destruct H as [-> | H]; [left; reflexivity | right].
  apply Nat.ltb_ge, H.
Qed.

Lemma printable_of_digits (limit d : nat) (num : Z) :
  forallb (fun z => (num_digits z <=? d)%nat)
          (num :: product_one_to num :: one_to num) = true ->
  (limit = 0 \/ d <= limit)%nat ->
  printable limit num = true.
Proof.
  intros Hd Hlim.
  assert (Hz : forall z, (num_digits z <=? d)%nat = true -> fits limit z = true).
  { intros z Hz; apply Nat.leb_le in Hz; apply fits_of_digits; lia. }
  cbn [forallb] in Hd.
  apply andb_true_iff in Hd as [H1 Hd]; apply andb_true_iff in Hd as [H2 H3].
  unfold printable; rewrite (Hz _ H1), (Hz _ H2); cbn [andb].
  apply forallb_forall; intros z Hin.
  apply Hz; revert z Hin; now apply forallb_forall.
Qed.

Lemma item_lines_length (num : Z) :
  List.length (item_lines num) = if 0 <? num then 3%nat else 2%nat.
Proof. unfold item_lines; now destruct (0 <? num). Qed.

Lemma flat_map_item_lines_length (l : list Z) :
  List.length (flat_map item_lines l)
  = (2 * List.length l + count_above 0 l)%nat.
Proof.
  unfold count_above; induction l as [| n l IH]; [reflexivity |].
  cbn [flat_map filter List.length]; rewrite length_app, IH, item_lines_length.
  destruct (0 <? n); cbn [List.length]; lia.
Qed.

Lemma range_calls_count (l : list Z) :
  List.length (filter is_range_call (flat_map item_calls l))
  = (count_above 0 l
     + count_above 1 l)%nat.
Proof.
  unfold count_above; induction l as [| n l IH]; [reflexivity |].
  cbn [flat_map filter]; rewrite filter_app, length_app, IH.
  unfold item_calls.
  destruct (0 <? n), (1 <? n); cbn; lia.
Qed.

(** *** Properties of the driver *)











(** X13: with the digit limit off or at 263 or more (every setting the
    interpreter accepts), the driver on its own test numbers 0, 5, 100 and
    150 ends normally after printing 11 lines, which begin as shown, and
    has computed the range 6 times. *)
Theorem main_runs (limit : nat) (out : stdout)
    (Hlimit : (limit = 0 \/ 263 <= limit)%nat) :
  res (main limit out) = Ok tt
  /\ world (main limit out)
     = (out ++ flat_map item_lines [0; 5; 100; 150])%list
  /\ List.length (flat_map item_lines [0; 5; 100; 150]) = 11%nat
  /\ firstn 5 (flat_map item_lines [0; 5; 100; 150])
     = ["Factorial of 0: 1"; separator;
        "Numbers up to 5: [1, 2, 3, 4, 5]"; "Factorial of 5: 120"; separator]
  /\ List.length (filter is_range_call (calls (main limit out))) = 6%nat.
Proof.
  assert (Hok : Forall (item_ok limit) [0; 5; 100; 150]).
  { repeat constructor; try lia;
      (apply (printable_of_digits limit 263); [vm_compute; reflexivity | exact Hlimit]). }
  unfold main; rewrite (main_loop_ok _ _ _ Hok); cbn [res world calls].
  split; [reflexivity |].
  split; [reflexivity |].
  split; [rewrite flat_map_item_lines_length; reflexivity |].
  split; [vm_compute; reflexivity |].
  rewrite range_calls_count; reflexivity.
Qed.

Lemma main_runs_witness :
  (4300 = 0 \/ 263 <= 4300)%nat /\ res (main 4300 []) = Ok tt.
Proof.
  assert (H : (4300 = 0 \/ 263 <= 4300)%nat) by (right; lia).
  split; [exact H |].
  exact (proj1 (main_runs 4300 [] H)).
Defined.
